(** * qbraid_qir.cirq.elements: module identifiers, circuit elements and
      the visitor traversal of a [CirqModule]

    A shallow embedding of [src/qbraid_qir/cirq/elements.py].  Python
    values are given Rocq types as follows.

    - A [str] whose code points are below 256 is a [string], one [ascii]
      per character; [bytes] is a [list Z] of values in [0, 256).
    - A 32-bit word of the hash function is a [Z] reduced modulo [2^32].
    - A [frozenset] of qubits is a [gset]; an iterable of operations is the
      [list] of what it yields.
    - An instance attribute that may never have been bound is an [option].
    - A call that may raise returns a [result]; code that also changes a
      store (the IR library's contexts, the visitor object) runs in the
      simple state-and-exception monad [Py].  *)

From Stdlib Require Import ZArith List String Ascii Lia.
From stdpp Require Import base gmap pretty.
Import ListNotations.

Local Open Scope string_scope.
Local Open Scope Z_scope.

(** ** Python strings *)

Module PyStr.

(** Code point of a character. *)
Definition ord (c : ascii) : Z := Z.of_N (N_of_ascii c).

(** [str.encode()]: UTF-8.  Code points below 128 are one byte, the
    others (below 256 here) are two. *)
Definition encode_char (c : ascii) : list Z :=
  let n := ord c in
  if n <? 128 then [n]
  else [Z.lor 192 (Z.shiftr n 6); Z.lor 128 (Z.land n 63)].

Fixpoint encode (s : string) : list Z :=
  match s with
  | EmptyString => []
  | String c s' => encode_char c ++ encode s'
  end.

(** [str.isalnum] on a single character with code point below 256:
    decimal digits, ASCII letters, and the Latin-1 letters and numeric
    characters of the Unicode database. *)
Definition isalnum (c : ascii) : bool :=
  let n := ord c in
  ((48 <=? n) && (n <=? 57)) || ((65 <=? n) && (n <=? 90))
  || ((97 <=? n) && (n <=? 122))
  || (n =? 170) || (n =? 178) || (n =? 179) || (n =? 181) || (n =? 185)
  || (n =? 186) || (n =? 188) || (n =? 189) || (n =? 190)
  || ((192 <=? n) && (n <=? 214)) || ((216 <=? n) && (n <=? 246))
  || ((248 <=? n) && (n <=? 255)).

(** ["".join(filter(p, s))] *)
Fixpoint filter (p : ascii -> bool) (s : string) : string :=
  match s with
  | EmptyString => EmptyString
  | String c s' => if p c then String c (filter p s') else filter p s'
  end.

(** The slice [s[:n]]; shorter than [n] when [s] is. *)
Fixpoint take (n : nat) (s : string) : string :=
  match n, s with
  | S n', String c s' => String c (take n' s')
  | _, _ => EmptyString
  end.

(** Every character of [s] satisfies [p]. *)
Fixpoint all (p : ascii -> bool) (s : string) : bool :=
  match s with
  | EmptyString => true
  | String c s' => p c && all p s'
  end.

End PyStr.

(** ** [hashlib.sha256]

    The hash function of the Python standard library, written out after
    FIPS 180-4 so that identifiers can be computed. *)

Module SHA256.

Definition wrap32 (x : Z) : Z := x mod 2 ^ 32.
Definition add32 (x y : Z) : Z := wrap32 (x + y).
Definition not32 (x : Z) : Z := Z.lxor x 0xffffffff.
Definition rotr (n x : Z) : Z :=
  Z.lor (Z.shiftr x n) (wrap32 (Z.shiftl x (32 - n))).

Definition Ch (x y z : Z) : Z := Z.lxor (Z.land x y) (Z.land (not32 x) z).
Definition Maj (x y z : Z) : Z :=
  Z.lxor (Z.lxor (Z.land x y) (Z.land x z)) (Z.land y z).
Definition Sigma0 (x : Z) : Z :=
  Z.lxor (Z.lxor (rotr 2 x) (rotr 13 x)) (rotr 22 x).
Definition Sigma1 (x : Z) : Z :=
  Z.lxor (Z.lxor (rotr 6 x) (rotr 11 x)) (rotr 25 x).
Definition sigma0 (x : Z) : Z :=
  Z.lxor (Z.lxor (rotr 7 x) (rotr 18 x)) (Z.shiftr x 3).
Definition sigma1 (x : Z) : Z :=
  Z.lxor (Z.lxor (rotr 17 x) (rotr 19 x)) (Z.shiftr x 10).

(** The constants are taken from the primes, as the standard derives
    them: the first 32 bits of the fractional part of the cube root (for
    [K], the first 64 primes) or of the square root (for [H0], the first
    8). *)
Definition is_prime (n : Z) : bool :=
  (1 <? n)
  && List.forallb (fun d => negb (n mod Z.of_nat d =? 0))
                  (List.seq 2 (Z.to_nat n - 2)).

Definition primes : list Z :=
  List.filter is_prime (List.map Z.of_nat (List.seq 2 310)).

(** Integer cube root, one bit at a time from bit [bits - 1] down. *)
Fixpoint cbrt_from (bits : nat) (x acc : Z) : Z :=
  match bits with
  | O => acc
  | S b =>
      let candidate := acc + 2 ^ Z.of_nat b in
      if candidate ^ 3 <=? x then cbrt_from b x candidate
      else cbrt_from b x acc
  end.

Definition frac_cbrt32 (p : Z) : Z := wrap32 (cbrt_from 40 (p * 2 ^ 96) 0).
Definition frac_sqrt32 (p : Z) : Z := wrap32 (Z.sqrt (p * 2 ^ 64)).

Definition K : list Z := Eval vm_compute in List.map frac_cbrt32 primes.

(** The eight working words. *)
Record words := Words {
  wa : Z; wb : Z; wc : Z; wd : Z; we : Z; wf : Z; wg : Z; wh : Z }.

Definition H0 : words :=
  Eval vm_compute in
  match List.map frac_sqrt32 (List.firstn 8 primes) with
  | [a; b; c; d; e; f; g; h] => Words a b c d e f g h
  | _ => Words 0 0 0 0 0 0 0 0
  end.

(** Padding: a 1 bit, zeros up to 56 modulo 64 bytes, then the bit
    length as a big-endian 64-bit integer. *)
Definition be_bytes (width : nat) (x : Z) : list Z :=
  List.map (fun i => Z.land (Z.shiftr x (8 * Z.of_nat i)) 255)
           (List.rev (List.seq 0 width)).

Definition pad (msg : list Z) : list Z :=
  let len := Z.of_nat (List.length msg) in
  msg ++ [128] ++ List.repeat 0 (Z.to_nat ((55 - len) mod 64))
      ++ be_bytes 8 (8 * len).

(** Big-endian 32-bit words of a byte string, four bytes at a time. *)
Fixpoint to_words (fuel : nat) (bs : list Z) : list Z :=
  match fuel, bs with
  | S fuel', b0 :: b1 :: b2 :: b3 :: rest =>
      (Z.shiftl b0 24 + Z.shiftl b1 16 + Z.shiftl b2 8 + b3)
        :: to_words fuel' rest
  | _, _ => []
  end.

(** The message schedule: sixteen words extended to sixty-four. *)
Fixpoint extend (n : nat) (w : list Z) : list Z :=
  match n with
  | O => w
  | S n' =>
      let t := List.length w in
      let at_ k := List.nth (t - k) w 0 in
      extend n'
        (w ++ [add32 (add32 (add32 (sigma1 (at_ 2%nat)) (at_ 7%nat))
                            (sigma0 (at_ 15%nat)))
                     (at_ 16%nat)])
  end.

Definition round (s : words) (kw : Z * Z) : words :=
  let t1 := add32 (add32 (add32 (add32 (wh s) (Sigma1 (we s)))
                                (Ch (we s) (wf s) (wg s)))
                         (fst kw))
                  (snd kw) in
  let t2 := add32 (Sigma0 (wa s)) (Maj (wa s) (wb s) (wc s)) in
  Words (add32 t1 t2) (wa s) (wb s) (wc s)
        (add32 (wd s) t1) (we s) (wf s) (wg s).

Definition compress (h : words) (block : list Z) : words :=
  let s := List.fold_left round (List.combine K (extend 48 block)) h in
  Words (add32 (wa h) (wa s)) (add32 (wb h) (wb s))
        (add32 (wc h) (wc s)) (add32 (wd h) (wd s))
        (add32 (we h) (we s)) (add32 (wf h) (wf s))
        (add32 (wg h) (wg s)) (add32 (wh h) (wh s)).

(** Blocks of sixteen words, in order. *)
Fixpoint blocks (fuel : nat) (h : words) (ws : list Z) : words :=
  match fuel, ws with
  | S fuel', _ :: _ =>
      blocks fuel' (compress h (List.firstn 16 ws)) (List.skipn 16 ws)
  | _, _ => h
  end.

Definition digest_words (msg : list Z) : words :=
  let p := pad msg in
  let ws := to_words (List.length p) p in
  blocks (List.length ws) H0 ws.

(** [hexdigest()]: eight lowercase hexadecimal digits per word. *)
Definition hex_digit (n : Z) : ascii :=
  if n <? 10 then ascii_of_N (Z.to_N (48 + n))
  else ascii_of_N (Z.to_N (87 + n)).

Definition hex_word (w : Z) : list ascii :=
  List.map (fun i => hex_digit (Z.land (Z.shiftr w (4 * Z.of_nat i)) 15))
           [7; 6; 5; 4; 3; 2; 1; 0]%nat.

Definition hex_chars (d : words) : list ascii :=
  hex_word (wa d) ++ hex_word (wb d) ++ hex_word (wc d)
  ++ hex_word (wd d) ++ hex_word (we d) ++ hex_word (wf d)
  ++ hex_word (wg d) ++ hex_word (wh d).

Definition hexdigest (msg : list Z) : string :=
  string_of_list_ascii (hex_chars (digest_words msg)).

End SHA256.

(** ** The alphabet of a digest *)

(** A lowercase hexadecimal digit: [0-9] or [a-f]. *)
Definition is_lower_hex (c : ascii) : bool :=
  let n := PyStr.ord c in
  ((48 <=? n) && (n <=? 57)) || ((97 <=? n) && (n <=? 102)).

(** The sixteen digits, and the strings of [n] characters over an
    alphabet. *)
Definition hex_alphabet : list ascii :=
  List.map (fun i => SHA256.hex_digit (Z.of_nat i)) (List.seq 0 16).

Fixpoint words_over (alphabet : list ascii) (n : nat) : list string :=
  match n with
  | O => [EmptyString]
  | S n' =>
      List.flat_map
        (fun c => List.map (String c) (words_over alphabet n')) alphabet
  end.

(** ** Exceptions and effects *)

(** A raised Python exception: its class and its message. *)
Record exn := Exn { exn_class : string; exn_msg : string }.

(** What reading an attribute that was never bound raises. *)
Definition AttributeError (cls attr : string) : exn :=
  Exn "AttributeError"
      ("'" +:+ cls +:+ "' object has no attribute '" +:+ attr +:+ "'").

Inductive result (A : Type) : Type :=
| Return (a : A)
| Raise (e : exn).
Arguments Return {A} a.
Arguments Raise {A} e.

#[global] Instance result_ret : MRet result := @Return.
#[global] Instance result_bind : MBind result := fun A B f r =>
  match r with
  | Return a => f a
  | Raise e => Raise e
  end.

(** A computation over a store [St]: it returns or raises, and leaves a
    store behind either way (an exception undoes nothing). *)
Definition Py (St A : Type) : Type := St -> result A * St.

#[global] Instance Py_ret {St} : MRet (Py St) := fun A a s => (Return a, s).
#[global] Instance Py_bind {St} : MBind (Py St) := fun A B f c s =>
  match c s with
  | (Return a, s') => f a s'
  | (Raise e, s') => (Raise e, s')
  end.

Definition raise {St A} (e : exn) : Py St A := fun s => (Raise e, s).

(** A call that touches no store. *)
Definition pure_call {St A} (r : result A) : Py St A := fun s => (r, s).

(** [for x in l: body(x)] *)
Fixpoint for_each {St A} (body : A -> Py St unit) (l : list A) : Py St unit :=
  match l with
  | [] => mret tt
  | x :: l' => body x ;; for_each body l'
  end.

(** ** External collaborators *)

(** What the module uses of [cirq]: qubit identifiers, operations, and a
    circuit with [all_qubits()], [all_operations()] and [cirq.to_json],
    which raises on a circuit it cannot serialize. *)
Class CirqLib := {
  Qid : Type;
  Qid_eq_dec :: EqDecision Qid;
  Qid_countable :: Countable Qid;
  Operation : Type;
  Circuit : Type;
  all_qubits : Circuit -> gset Qid;
  all_operations : Circuit -> list Operation;
  to_json : Circuit -> result string }.

(** Modelled from the spec: the types [Context] and [Module] of the IR
    library [pyqir], which the source imports.  [Context()] makes a new
    context; a module is constructible from a context and a name and
    exposes that name as its [source_filename] field.  The store of the
    library is the number of contexts made so far.  ([Module] is a
    reserved word here, hence [Module_].) *)
Module pyqir.

Record Context := { context_id : nat }.

Record Module_ := { context : Context; source_filename : string }.

Definition new_Context : Py nat Context :=
  fun n => (Return {| context_id := n |}, S n).

Definition new_Module (ctx : Context) (name : string) : Module_ :=
  {| context := ctx; source_filename := name |}.

End pyqir.

(** ** The module under verification *)

Section Elements.

Context `{L : CirqLib}.

(** [generate_module_id(circuit)] *)
Definition generate_module_id (circuit : Circuit) : result string :=
  serialized_circuit ← to_json circuit;
  let hash_hex := SHA256.hexdigest (PyStr.encode serialized_circuit) in
  let alphanumeric_hash := PyStr.filter PyStr.isalnum hash_hex in
  let truncated_hash := PyStr.take 7 alphanumeric_hash in
  mret ("circuit-" +:+ truncated_hash).

(** The digest [generate_module_id] computes from a serialized
    circuit. *)
Definition hash_hex (serialized_circuit : string) : string :=
  SHA256.hexdigest (PyStr.encode serialized_circuit).

(** An instance of [_Register]: its one attribute, when bound. *)
Record _Register := { _register : option (gset Qid) }.

(** [_Register.__init__]: the body is the annotation
    [self._register: register], which binds nothing. *)
Definition Register_init (register : gset Qid) : _Register :=
  {| _register := None |}.

Record _Operation := { _operation : option Operation }.

(** [_Operation.__init__]: [self._operation = operation]. *)
Definition Operation_init (operation : Operation) : _Operation :=
  {| _operation := Some operation |}.

(** The two subclasses of [_CircuitElement]. *)
Inductive _CircuitElement :=
| Register_elem (r : _Register)
| Operation_elem (o : _Operation).

(** [cls.from_element_list(elements)], with [cls] given by its
    constructor. *)
Definition from_element_list {A} (cls : A -> _CircuitElement)
    (elements : list A) : list _CircuitElement :=
  List.map cls elements.

Record CirqModule := {
  _name : string;
  _module : pyqir.Module_;
  _elements : list _CircuitElement;
  _num_qubits : nat }.

Definition name (self : CirqModule) : string := _name self.
Definition module (self : CirqModule) : pyqir.Module_ := _module self.
Definition num_qubits (self : CirqModule) : nat := _num_qubits self.

(** [CirqModule.from_circuit(circuit, module)] *)
Definition from_circuit (circuit : Circuit)
    (module : option pyqir.Module_) : Py nat CirqModule :=
  let elements := [] in
  let elements :=
    (elements ++ [Register_elem (Register_init (all_qubits circuit))])%list
  in
  let elements :=
    List.fold_left
      (fun elements operation =>
         (elements ++ [Operation_elem (Operation_init operation)])%list)
      (all_operations circuit) elements in
  module ← match module with
            | None =>
                ctx ← pyqir.new_Context;
                id ← pure_call (generate_module_id circuit);
                mret (pyqir.new_Module ctx id)
            | Some module => mret module
            end;
  mret {| _name := pyqir.source_filename module;
          _module := module;
          _num_qubits := size (all_qubits circuit);
          _elements := elements |}.

(** The calls of [from_circuit] that return: a handle is supplied, or
    the circuit serializes. *)
Definition buildable (C : Circuit) (h : option pyqir.Module_) : Prop :=
  is_Some h \/ exists s, to_json C = Return s.

(** A visitor: an object with state [V] and the five methods the
    traversal calls. *)
Record Visitor (V : Type) := {
  visit_cirq_module : CirqModule -> Py V unit;
  visit_register : gset Qid -> Py V unit;
  visit_operation : Operation -> Py V unit;
  record_output : CirqModule -> Py V unit;
  finalize : Py V unit }.
Arguments visit_cirq_module {V}.
Arguments visit_register {V}.
Arguments visit_operation {V}.
Arguments record_output {V}.
Arguments finalize {V}.

(** Reading [self.<attr>]. *)
Definition getattr {St A} (cls attr : string) (slot : option A) : Py St A :=
  match slot with
  | Some a => mret a
  | None => raise (AttributeError cls attr)
  end.

(** [_Register.accept] and [_Operation.accept] *)
Definition element_accept {V} (self : _CircuitElement)
    (visitor : Visitor V) : Py V unit :=
  match self with
  | Register_elem r =>
      register ← getattr "_Register" "_register" (_register r);
      visit_register visitor register
  | Operation_elem o =>
      operation ← getattr "_Operation" "_operation" (_operation o);
      visit_operation visitor operation
  end.

(** [CirqModule.accept] *)
Definition accept {V} (self : CirqModule) (visitor : Visitor V)
    : Py V unit :=
  visit_cirq_module visitor self ;;
  for_each (fun element => element_accept element visitor)
           (_elements self) ;;
  record_output visitor self ;;
  finalize visitor.

End Elements.

Arguments visit_cirq_module {L V}.
Arguments visit_register {L V}.
Arguments visit_operation {L V}.
Arguments record_output {L V}.
Arguments finalize {L V}.

(** ** Observing a traversal *)

Section Recording.

Context `{L : CirqLib}.

(** A method call on a visitor, with its argument. *)
Inductive call :=
| visit_cirq_module_call (m : CirqModule)
| visit_register_call (r : gset Qid)
| visit_operation_call (o : Operation)
| record_output_call (m : CirqModule)
| finalize_call.

(** A call and how it ended. *)
Record event := Event { ev_call : call; ev_outcome : result unit }.

Definition logged {V} (c : call) (method : Py V unit)
    : Py (V * list event) unit :=
  fun st =>
    let (r, s') := method (fst st) in
    (r, (s', (snd st ++ [Event c r])%list)).

(** The visitor [v] wrapped so that every call made on it is written to
    a log, in order, before control returns to the caller. *)
Definition recording {V} (v : Visitor V) : Visitor (V * list event) :=
  {| visit_cirq_module m :=
       logged (visit_cirq_module_call m) (visit_cirq_module v m);
     visit_register r := logged (visit_register_call r) (visit_register v r);
     visit_operation o :=
       logged (visit_operation_call o) (visit_operation v o);
     record_output m := logged (record_output_call m) (record_output v m);
     finalize := logged finalize_call (finalize v) |}.

(** A visitor whose methods do nothing and return. *)
Definition silent : Visitor unit :=
  {| visit_cirq_module _ := mret tt;
     visit_register _ := mret tt;
     visit_operation _ := mret tt;
     record_output _ := mret tt;
     finalize := mret tt |}.

(** A visitor that counts the calls it gets and raises [e] on call
    number [k] (from 0). *)
Definition failing_at (k : nat) (e : exn) : Visitor nat :=
  let method : Py nat unit :=
    fun n => if Nat.eqb n k then (Raise e, S n) else (Return tt, S n) in
  {| visit_cirq_module _ := method;
     visit_register _ := method;
     visit_operation _ := method;
     record_output _ := method;
     finalize := method |}.

(** The calls the protocol prescribes for a module whose elements hold
    the registers [rs] and operations as listed. *)
Definition element_call (el : _CircuitElement) : option call :=
  match el with
  | Register_elem r => visit_register_call <$> _register r
  | Operation_elem o => visit_operation_call <$> _operation o
  end.

Definition returned (c : call) : event := Event c (Return tt).

(** The calls a traversal of [els] owes the visitor, when every
    element has its attribute bound. *)
Fixpoint element_calls (els : list _CircuitElement) : option (list call) :=
  match els with
  | [] => Some []
  | el :: els' =>
      c ← element_call el; cs ← element_calls els'; Some (c :: cs)
  end.

(** The calls of the four phases, in order. *)
Definition protocol (m : CirqModule) : option (list call) :=
  cs ← element_calls (_elements m);
  Some (visit_cirq_module_call m :: cs
          ++ [record_output_call m; finalize_call])%list.

(** No call in the log raised. *)
Definition clean (t : list event) : Prop :=
  Forall (fun ev => ev_outcome ev = Return tt) t.

(** A computation over a recorded visitor is guarded when, run on a
    clean log, it leaves a clean log, or a log whose last call raised
    the exception the computation itself ends with. *)
Definition guarded {V A} (c : Py (V * list event) A) : Prop :=
  forall s t, clean t ->
    clean (snd (snd (c (s, t))))
    \/ exists pre k e,
         snd (snd (c (s, t))) = (pre ++ [Event k (Raise e)])%list
         /\ clean pre /\ fst (c (s, t)) = Raise e.

End Recording.

(** ** A small circuit library

    Line qubits are integers, an operation is a gate name with its
    qubits, a circuit the list of its operations.  Serialization knows
    the gates [H], [CNOT] and [measure] and raises on any other. *)

Module LineCircuits.

Definition operation : Type := string * list Z.

Definition known_gate (g : string) : bool :=
  bool_decide (g = "H") || bool_decide (g = "CNOT")
  || bool_decide (g = "measure").

Definition render (op : operation) : string :=
  fst op +:+ "(" +:+ String.concat ", " (List.map pretty (snd op)) +:+ ")".

Definition serialize (c : list operation) : result string :=
  if forallb (fun op => known_gate (fst op)) c
  then Return ("[" +:+ String.concat ", " (List.map render c) +:+ "]")
  else Raise (Exn "ValueError" "Cannot serialize custom gate").

Definition lib : CirqLib := {|
  Qid := Z;
  Operation := operation;
  Circuit := list operation;
  all_qubits c := list_to_set (List.concat (List.map snd c));
  all_operations c := c;
  to_json := serialize |}.

Definition empty : @Circuit lib := [].

Definition bell : @Circuit lib :=
  [("H", [0]); ("CNOT", [0; 1]); ("measure", [0]); ("measure", [1])].

Definition custom : @Circuit lib := [("MyGate", [0])].

Definition handle : pyqir.Module_ :=
  pyqir.new_Module {| pyqir.context_id := 0 |} "test_qir_bell".

Definition bell_json : string := "[H(0), CNOT(0, 1), measure(0), measure(1)]".

Definition unsupported : exn := Exn "ValueError" "Cannot serialize custom gate".

(** A module made with the constructor, holding two operations. *)
Definition two_operations : CirqModule (L := lib) :=
  {| _name := "test_qir_bell";
     _module := handle;
     _num_qubits := 2;
     _elements := [Operation_elem (Operation_init (L := lib) ("H", [0]));
                   Operation_elem (Operation_init (L := lib) ("CNOT", [0; 1]))] |}.

Definition boom : exn := Exn "RuntimeError" "visitor failed".

End LineCircuits.

(** ** Notions used to state further properties *)

(** Bits 4 to 31 of the first word of the digest of a serialized
    circuit: the part of the digest its first seven hexadecimal digits
    spell. *)
Definition id_bits (serialized_circuit : string) : Z :=
  Z.shiftr
    (SHA256.wa (SHA256.digest_words (PyStr.encode serialized_circuit))) 4.

(** A 32-bit word. *)
Definition in_word (w : Z) : Prop := 0 <= w < 2 ^ 32.

(** The hexadecimal digit of [x] at position [i], counted from the
    right. *)
Definition nibble (x : Z) (i : Z) : Z := Z.land (Z.shiftr x (4 * i)) 15.

Section Observations.

Context `{L : CirqLib}.


(** A method that returns from every state, and a visitor all of whose
    methods do. *)
Definition returns {V} (method : Py V unit) : Prop :=
  forall s, fst (method s) = Return tt.

Definition never_raises {V} (v : Visitor V) : Prop :=
  (forall m, returns (visit_cirq_module v m))
  /\ (forall r, returns (visit_register v r))
  /\ (forall o, returns (visit_operation v o))
  /\ (forall m, returns (record_output v m))
  /\ returns (finalize v).




End Observations.

(** Two circuits of one gate each, on different qubits. *)
Module Collision.

Definition first : @Circuit LineCircuits.lib := [("H", [14522])].

Definition second : @Circuit LineCircuits.lib := [("H", [19069])].

End Collision.

(** A module made with the constructor: a register between two
    operations. *)
Module Samples.


End Samples.

(** * Properties *)

(** ** The hash function against known digests *)

Example sha256_constants :
  List.length SHA256.K = 64%nat
  /\ List.nth 0 SHA256.K 0 = 0x428a2f98
  /\ List.nth 63 SHA256.K 0 = 0xc67178f2
  /\ SHA256.wa SHA256.H0 = 0x6a09e667
  /\ SHA256.wh SHA256.H0 = 0x5be0cd19.
Proof. repeat split. Qed.

Example sha256_empty :
  SHA256.hexdigest (PyStr.encode "")
  = "e3b0c44298fc1c149afbf4c8996fb92427ae41e4649b934ca495991b7852b855".
Proof. vm_compute. reflexivity. Qed.

Example sha256_abc :
  SHA256.hexdigest (PyStr.encode "abc")
  = "ba7816bf8f01cfea414140de5dae2223b00361a396177a9cb410ff61f20015ad".
Proof. vm_compute. reflexivity. Qed.

(** 56 bytes: the padding spills into a second block. *)
Example sha256_two_blocks :
  SHA256.hexdigest
    (PyStr.encode "aaaaaaaaaaaaaaaaaaaaaaaaaaaaaaaaaaaaaaaaaaaaaaaaaaaaaaaa")
  = "b35439a4ac6f0948b6d6f9e3c6af0f5f590ce20f1bde7090ef7970686ec6738a".
Proof. vm_compute. reflexivity. Qed.

(** A two-byte character: U+00E9. *)
Example sha256_latin1 :
  SHA256.hexdigest (PyStr.encode (String (ascii_of_nat 233) ""))
  = "4a99557e4033c3539de2eb65472017cad5f9557f7a0625a09f1c3f6e2ba69c4c".
Proof. vm_compute. reflexivity. Qed.

(** ** Strings *)

Module PyStrFacts.
Import PyStr.

Lemma filter_all p s : all p s = true -> filter p s = s.
Proof.
  induction s as [|c s IH]; simpl; [reflexivity|].
  intros [Hc Hs]%andb_prop. rewrite Hc, IH; auto.
Qed.

Lemma all_take p n s : all p s = true -> all p (take n s) = true.
Proof.
  revert s; induction n as [|n IH]; intros [|c s]; simpl; auto.
  intros [Hc Hs]%andb_prop. rewrite Hc; simpl; auto.
Qed.

Lemma length_take n s :
  (n <= String.length s)%nat -> String.length (take n s) = n.
Proof.
  revert s; induction n as [|n IH]; intros [|c s]; simpl; auto; try lia.
  intros Hn. rewrite IH; lia.
Qed.

Lemma all_impl (p q : ascii -> bool) s :
  (forall c, p c = true -> q c = true) -> all p s = true -> all q s = true.
Proof.
  intros Hpq; induction s as [|c s IH]; simpl; auto.
  intros [Hc Hs]%andb_prop. rewrite (Hpq _ Hc); simpl; auto.
Qed.

Lemma all_of_list p l :
  all p (string_of_list_ascii l) = forallb p l.
Proof. induction l as [|c l IH]; simpl; congruence. Qed.

Lemma length_of_list l :
  String.length (string_of_list_ascii l) = List.length l.
Proof. induction l as [|c l IH]; simpl; congruence. Qed.

Lemma length_append s1 s2 :
  String.length (s1 +:+ s2) = (String.length s1 + String.length s2)%nat.
Proof. induction s1 as [|c s1 IH]; simpl; [reflexivity|]. rewrite IH; reflexivity. Qed.

End PyStrFacts.

(** ** The hexadecimal digest *)

Module SHA256Facts.
Import SHA256 PyStr PyStrFacts.

Lemma nibble_range x : 0 <= Z.land x 15 < 16.
Proof.
  change 15 with (Z.ones 4). rewrite Z.land_ones by lia.
  apply Z.mod_pos_bound; lia.
Qed.

Lemma hex_digit_cases n :
  0 <= n < 16 -> In (hex_digit n) hex_alphabet.
Proof.
  intros Hn. unfold hex_alphabet. apply List.in_map_iff.
  exists (Z.to_nat n). split.
  - rewrite Z2Nat.id by lia. reflexivity.
  - apply List.in_seq. lia.
Qed.

Lemma hex_alphabet_lower c : In c hex_alphabet -> is_lower_hex c = true.
Proof.
  unfold hex_alphabet; simpl.
  intros H; repeat (destruct H as [<-|H]; [reflexivity|]); destruct H.
Qed.

Lemma hex_word_length w : List.length (hex_word w) = 8%nat.
Proof. reflexivity. Qed.

Lemma hex_word_alphabet w : Forall (fun c => In c hex_alphabet) (hex_word w).
Proof.
  unfold hex_word. apply Forall_map, Forall_forall.
  intros i _. apply hex_digit_cases, nibble_range.
Qed.

Lemma hexdigest_chars msg :
  hexdigest msg = string_of_list_ascii (hex_chars (digest_words msg)).
Proof. reflexivity. Qed.

Lemma hex_chars_length d : List.length (hex_chars d) = 64%nat.
Proof. reflexivity. Qed.

Lemma hex_chars_alphabet d : Forall (fun c => In c hex_alphabet) (hex_chars d).
Proof.
  unfold hex_chars.
  repeat (apply Forall_app; split); apply hex_word_alphabet.
Qed.

Lemma hexdigest_length msg : String.length (hexdigest msg) = 64%nat.
Proof. rewrite hexdigest_chars, length_of_list. apply hex_chars_length. Qed.

Lemma hexdigest_lower msg : all is_lower_hex (hexdigest msg) = true.
Proof.
  rewrite hexdigest_chars, all_of_list. apply forallb_forall.
  intros c Hc. apply hex_alphabet_lower.
  pose proof (hex_chars_alphabet (digest_words msg)) as HF.
  rewrite List.Forall_forall in HF. apply HF, Hc.
Qed.

Lemma lower_hex_isalnum c : is_lower_hex c = true -> isalnum c = true.
Proof.
  destruct c as [[] [] [] [] [] [] [] []]; vm_compute; congruence.
Qed.

(** The filter of [generate_module_id] keeps every character of a
    digest. *)
Lemma filter_hexdigest msg :
  filter isalnum (hexdigest msg) = hexdigest msg.
Proof.
  apply filter_all. eapply all_impl; [apply lower_hex_isalnum|].
  apply hexdigest_lower.
Qed.

End SHA256Facts.

(** ** Words over an alphabet *)

Lemma prefixed_length (alphabet : list ascii) (ws : list string) :
  List.length (List.flat_map (fun c => List.map (String c) ws) alphabet)
  = (List.length alphabet * List.length ws)%nat.
Proof.
  induction alphabet as [|c cs IHc]; simpl; [reflexivity|].
  rewrite List.length_app, List.length_map, IHc. reflexivity.
Qed.

Lemma words_over_length alphabet n :
  List.length (words_over alphabet n) = (List.length alphabet ^ n)%nat.
Proof.
  induction n as [|n IH]; [reflexivity|].
  cbn [words_over Nat.pow]. rewrite prefixed_length, IH. reflexivity.
Qed.

Lemma words_over_complete alphabet (l : list ascii) :
  Forall (fun c => In c alphabet) l ->
  In (string_of_list_ascii l) (words_over alphabet (List.length l)).
Proof.
  induction 1 as [|c l Hc _ IH]; simpl; [auto|].
  apply in_flat_map. exists c; split; [exact Hc|].
  apply in_map, IH.
Qed.

Lemma Forall_prefix {A} (P : A -> Prop) n (l : list A) :
  Forall P l -> Forall P (firstn n l).
Proof.
  intros H; revert n; induction H as [|x l Hx _ IH]; intros [|n]; simpl;
    constructor; auto.
Qed.

Lemma take_of_list n (l : list ascii) :
  PyStr.take n (string_of_list_ascii l) = string_of_list_ascii (firstn n l).
Proof.
  revert l; induction n as [|n IH]; intros [|c l]; simpl; auto.
  rewrite IH; reflexivity.
Qed.

(** ** Module identifiers *)

Section ModuleId.

Context `{L : CirqLib}.
Import PyStr PyStrFacts SHA256Facts.

Lemma generate_module_id_unfold (C : Circuit) (s : string) :
  to_json C = Return s ->
  generate_module_id C = Return ("circuit-" +:+ take 7 (hash_hex s)).
Proof.
  intros Hs. unfold generate_module_id, hash_hex. rewrite Hs.
  cbn [mbind result_bind mret result_ret].
  rewrite filter_hexdigest. reflexivity.
Qed.

Lemma generate_module_id_raises (C : Circuit) (e : exn) :
  to_json C = Raise e -> generate_module_id C = Raise e.
Proof. intros Hs. unfold generate_module_id. rewrite Hs. reflexivity. Qed.

Lemma hash_hex_prefix_length s : String.length (take 7 (hash_hex s)) = 7%nat.
Proof.
  apply length_take. unfold hash_hex. rewrite hexdigest_length. lia.
Qed.

(** C4: when the circuit serializes, [generate_module_id] returns
    ['circuit-'] followed by exactly 7 alphanumeric characters, a string
    of [len('circuit-') + 7 = 15] characters. *)
Theorem generate_module_id_format (C : Circuit) (s : string) :
  to_json C = Return s ->
  exists suffix : string,
    generate_module_id C = Return ("circuit-" +:+ suffix)
    /\ String.length suffix = 7%nat
    /\ all isalnum suffix = true
    /\ String.length ("circuit-" +:+ suffix)
       = (String.length "circuit-" + 7)%nat
    /\ String.length ("circuit-" +:+ suffix) = 15%nat.
Proof.
  intros Hs. exists (take 7 (hash_hex s)).
  pose proof (hash_hex_prefix_length s) as Hlen.
  split; [|split; [|split; [|split]]].
  - apply generate_module_id_unfold, Hs.
  - exact Hlen.
  - apply all_take. eapply all_impl; [apply lower_hex_isalnum|].
    apply hexdigest_lower.
  - rewrite length_append, Hlen. reflexivity.
  - rewrite length_append, Hlen. reflexivity.
Qed.

(** C5: the identifier is a function of the serialized circuit alone:
    two circuits with the same serialized form (in particular the same
    circuit, asked twice) get the same identifier, or fail alike. *)
Theorem generate_module_id_deterministic (C1 C2 : Circuit) :
  to_json C1 = to_json C2 ->
  generate_module_id C1 = generate_module_id C2.
Proof. unfold generate_module_id. intros ->. reflexivity. Qed.

(** C10: the alphanumeric filter leaves the digest as it is, so the
    identifier is ['circuit-'] and the first 7 characters of the digest;
    these are lowercase hexadecimal digits, and the suffix is one of the
    [16^7] strings of 7 such digits. *)
Theorem generate_module_id_hex_suffix (C : Circuit) (s : string) :
  to_json C = Return s ->
  filter isalnum (hash_hex s) = hash_hex s
  /\ generate_module_id C = Return ("circuit-" +:+ take 7 (hash_hex s))
  /\ all is_lower_hex (take 7 (hash_hex s)) = true
  /\ In (take 7 (hash_hex s)) (words_over hex_alphabet 7)
  /\ List.length (words_over hex_alphabet 7) = (16 ^ 7)%nat.
Proof.
  intros Hs. split; [|split; [|split; [|split]]].
  - apply filter_hexdigest.
  - apply generate_module_id_unfold, Hs.
  - apply all_take, hexdigest_lower.
  - unfold hash_hex. rewrite hexdigest_chars, take_of_list.
    pose proof (hex_chars_alphabet (SHA256.digest_words (encode s))) as HF.
    pose proof (hex_chars_length (SHA256.digest_words (encode s))) as Hl.
    replace 7%nat
      with (List.length
              (firstn 7 (SHA256.hex_chars (SHA256.digest_words (encode s)))))
      at 2 by (rewrite List.length_firstn, Hl; reflexivity).
    apply words_over_complete.
    apply Forall_prefix, HF.
  - apply words_over_length.
Qed.

End ModuleId.

(** ** Building a module *)

Section Builder.

Context `{L : CirqLib}.

Lemma append_each {A B} (f : A -> B) (l : list A) (init : list B) :
  List.fold_left (fun acc x => (acc ++ [f x])%list) l init
  = (init ++ List.map f l)%list.
Proof.
  revert init; induction l as [|x l IH]; intros init; simpl.
  - rewrite List.app_nil_r. reflexivity.
  - rewrite IH, <- List.app_assoc. reflexivity.
Qed.

(** The element list [from_circuit] assembles. *)
Lemma from_circuit_handle (C : Circuit) (h : pyqir.Module_) (n : nat) :
  from_circuit C (Some h) n
  = (Return {| _name := pyqir.source_filename h;
               _module := h;
               _num_qubits := size (all_qubits C);
               _elements :=
                 Register_elem (Register_init (all_qubits C))
                   :: List.map (fun o => Operation_elem (Operation_init o))
                               (all_operations C) |},
     n).
Proof. unfold from_circuit. rewrite append_each. reflexivity. Qed.

Lemma from_circuit_fresh (C : Circuit) (id : string) (n : nat) :
  generate_module_id C = Return id ->
  from_circuit C None n
  = (Return {| _name := id;
               _module := pyqir.new_Module {| pyqir.context_id := n |} id;
               _num_qubits := size (all_qubits C);
               _elements :=
                 Register_elem (Register_init (all_qubits C))
                   :: List.map (fun o => Operation_elem (Operation_init o))
                               (all_operations C) |},
     S n).
Proof.
  intros Hid. unfold from_circuit. rewrite append_each.
  cbv [mbind Py_bind pyqir.new_Context pure_call mret Py_ret].
  rewrite Hid. reflexivity.
Qed.

Lemma from_circuit_fresh_raises (C : Circuit) (e : exn) (n : nat) :
  generate_module_id C = Raise e ->
  from_circuit C None n = (Raise e, S n).
Proof.
  intros Hid. unfold from_circuit.
  cbv [mbind Py_bind pyqir.new_Context pure_call mret Py_ret].
  rewrite Hid. reflexivity.
Qed.

Lemma from_circuit_returns (C : Circuit) (h : option pyqir.Module_) n :
  buildable C h ->
  exists m n',
    from_circuit C h n = (Return m, n')
    /\ _num_qubits m = size (all_qubits C)
    /\ _elements m
       = Register_elem {| _register := None |}
           :: List.map (fun o => Operation_elem {| _operation := Some o |})
                       (all_operations C).
Proof.
  intros [[h' ->]|[s Hs]].
  - eexists _, _. split; [apply from_circuit_handle|]. split; reflexivity.
  - destruct h as [h'|].
    + eexists _, _. split; [apply from_circuit_handle|]. split; reflexivity.
    + eexists _, _. split.
      * apply from_circuit_fresh. eapply generate_module_id_unfold, Hs.
      * split; reflexivity.
Qed.

(** C2: the element sequence of [from_circuit(C)] has length
    [1 + count(C.all_operations())], and elements 1..n wrap the
    operations in order; element 0 is a [_Register], but one that wraps
    nothing: its [_register] attribute is unbound, not [C.all_qubits()]. *)
Theorem from_circuit_elements (C : Circuit) (h : option pyqir.Module_) n :
  buildable C h ->
  exists m,
    fst (from_circuit C h n) = Return m
    /\ List.length (_elements m) = S (List.length (all_operations C))
    /\ List.nth_error (_elements m) 0
       = Some (Register_elem {| _register := None |})
    /\ List.nth_error (_elements m) 0
       <> Some (Register_elem {| _register := Some (all_qubits C) |})
    /\ List.tl (_elements m)
       = List.map (fun o => Operation_elem {| _operation := Some o |})
                  (all_operations C).
Proof.
  intros Hb. destruct (from_circuit_returns C h n Hb) as (m & n' & Hm & _ & He).
  exists m. rewrite Hm, He. simpl.
  rewrite List.length_map. repeat split. discriminate.
Qed.

(** C6: with a handle [h] supplied the module's name is [h]'s stored
    name; with none, it is the stored name of a fresh handle named by
    [generate_module_id(C)]. *)
Theorem from_circuit_name (C : Circuit) (n : nat) :
  (forall h : pyqir.Module_,
      exists m, fst (from_circuit C (Some h) n) = Return m
                /\ name m = pyqir.source_filename h
                /\ module m = h)
  /\ (forall id : string,
         generate_module_id C = Return id ->
         exists m ctx,
           from_circuit C None n = (Return m, S n)
           /\ module m = pyqir.new_Module ctx id
           /\ name m = pyqir.source_filename (pyqir.new_Module ctx id)
           /\ name m = id).
Proof.
  split.
  - intros h. eexists. rewrite from_circuit_handle. repeat split.
  - intros id Hid. eexists _, _. rewrite (from_circuit_fresh _ _ _ Hid).
    repeat split.
Qed.

(** C7, amended: with a handle supplied [from_circuit] never calls
    [generate_module_id]: it returns whatever the serializer would do and
    makes no context; the serializer's failure propagates only when no
    handle is supplied. *)
Theorem from_circuit_serialization_failure (C : Circuit) (n : nat) :
  (forall h : pyqir.Module_,
      exists m, from_circuit C (Some h) n = (Return m, n)
                /\ name m = pyqir.source_filename h)
  /\ (forall e : exn,
         to_json C = Raise e -> from_circuit C None n = (Raise e, S n)).
Proof.
  split.
  - intros h. eexists. rewrite from_circuit_handle. repeat split.
  - intros e He. apply from_circuit_fresh_raises, generate_module_id_raises, He.
Qed.

(** C9: [from_circuit(C).num_qubits] is the cardinality of
    [C.all_qubits()]. *)
Theorem from_circuit_num_qubits (C : Circuit) (h : option pyqir.Module_) n :
  buildable C h ->
  exists m,
    fst (from_circuit C h n) = Return m
    /\ num_qubits m = size (all_qubits C).
Proof.
  intros Hb. destruct (from_circuit_returns C h n Hb) as (m & n' & Hm & Hq & _).
  exists m. rewrite Hm. split; [reflexivity|exact Hq].
Qed.

End Builder.

(** ** Traversal *)

Section Traversal.

Context `{L : CirqLib}.

Lemma unit_result (r : result unit) : (exists e, r = Raise e) \/ r = Return tt.
Proof. destruct r as [[]|e]; eauto. Qed.

(** *** What a [_Register] does with a visitor *)

(** C3: a [_Register] built from the qubit set [r] does not pass [r]
    to [visit_register]: reading [self._register] raises
    [AttributeError], the visitor is left as it was and no call reaches
    it. *)
Theorem register_accept_raises {V} (r : gset Qid) (v : Visitor V)
    (s : V) (t : list event) :
  element_accept (Register_elem (Register_init r)) v s
  = (Raise (AttributeError "_Register" "_register"), s)
  /\ element_accept (Register_elem (Register_init r)) (recording v) (s, t)
     = (Raise (AttributeError "_Register" "_register"), (s, t)).
Proof. split; reflexivity. Qed.

Lemma logged_run {V} (k : call) (method : Py V unit) (s : V) t :
  logged k method (s, t)
  = (fst (method s),
     (snd (method s), (t ++ [Event k (fst (method s))])%list)).
Proof. unfold logged; simpl. destruct (method s); reflexivity. Qed.

(** With the attribute bound the call goes through, which is what
    [_Operation] does. *)
Lemma bound_element_accept {V} (el : _CircuitElement) (k : call)
    (v : Visitor V) :
  element_call el = Some k ->
  exists method : Py V unit,
    element_accept el v = method
    /\ element_accept el (recording v) = logged k method.
Proof.
  destruct el as [[[r|]]|[[o|]]]; simpl; intros [= <-].
  - exists (visit_register v r). split; reflexivity.
  - exists (visit_operation v o). split; reflexivity.
Qed.

(** *** Running a sequence *)

Lemma bind_returns {St A B} (c : Py St A) (f : A -> Py St B) s a s' :
  c s = (Return a, s') -> (c ≫= f) s = f a s'.
Proof. intros H. cbv [mbind Py_bind]. rewrite H. reflexivity. Qed.

Lemma bind_raises {St A B} (c : Py St A) (f : A -> Py St B) s e s' :
  c s = (Raise e, s') -> (c ≫= f) s = (Raise e, s').
Proof. intros H. cbv [mbind Py_bind]. rewrite H. reflexivity. Qed.

(** *** Guarded computations *)

Lemma clean_snoc t k : clean t -> clean (t ++ [returned k]).
Proof.
  intros Ht. apply Forall_app; split; [exact Ht|].
  repeat constructor.
Qed.

Lemma clean_snoc_raised pre k e post :
  clean (pre ++ Event k (Raise e) :: post) -> False.
Proof.
  intros H. apply Forall_app in H as [_ H].
  inversion H as [|? ? Hev _]; subst. discriminate Hev.
Qed.

Lemma guarded_ret {V A} (a : A) : guarded (V := V) (mret a).
Proof. intros s t Ht. left. exact Ht. Qed.

Lemma guarded_raise {V A} (e : exn) : guarded (V := V) (A := A) (raise e).
Proof. intros s t Ht. left. exact Ht. Qed.

Lemma guarded_logged {V} (k : call) (method : Py V unit) :
  guarded (logged k method).
Proof.
  intros s t Ht. rewrite logged_run; simpl.
  destruct (unit_result (fst (method s))) as [[e He]|He]; rewrite He.
  - right. exists t, k, e. auto.
  - left. apply clean_snoc, Ht.
Qed.

Lemma guarded_bind {V A B} (c : Py (V * list event) A)
    (f : A -> Py (V * list event) B) :
  guarded c -> (forall a, guarded (f a)) -> guarded (c ≫= f).
Proof.
  intros Hc Hf s t Ht. specialize (Hc s t Ht).
  destruct (c (s, t)) as [[a|e] [s' t']] eqn:Hrun; simpl in Hc.
  - rewrite (bind_returns _ _ _ _ _ Hrun).
    destruct Hc as [Hc|(pre & k & e & _ & _ & [=])].
    apply Hf, Hc.
  - rewrite (bind_raises _ _ _ _ _ Hrun). simpl.
    destruct Hc as [Hc|(pre & k & e' & Ht' & Hpre & [= <-])]; [left; exact Hc|].
    right. exists pre, k, e. auto.
Qed.

Lemma guarded_element_accept {V} (el : _CircuitElement) (v : Visitor V) :
  guarded (element_accept el (recording v)).
Proof.
  destruct el as [[[r|]]|[[o|]]]; simpl;
    first [apply guarded_raise | apply guarded_logged].
Qed.

Lemma guarded_for_each {V} (els : list _CircuitElement) (v : Visitor V) :
  guarded (for_each (fun el => element_accept el (recording v)) els).
Proof.
  induction els as [|el els IH]; simpl.
  - apply guarded_ret.
  - apply guarded_bind; [apply guarded_element_accept|intros _; exact IH].
Qed.

Lemma guarded_accept {V} (m : CirqModule) (v : Visitor V) :
  guarded (accept m (recording v)).
Proof.
  unfold accept.
  apply guarded_bind; [apply guarded_logged|intros _].
  apply guarded_bind; [apply guarded_for_each|intros _].
  apply guarded_bind; [apply guarded_logged|intros _].
  apply guarded_logged.
Qed.

(** C8: whichever call on the visitor raises during [m.accept(v)], that
    call is the last one made, every call before it returned, and
    [accept] ends by raising that same exception. *)
Theorem accept_visitor_failure {V} (m : CirqModule) (v : Visitor V)
    (s s' : V) (r : result unit) (t pre post : list event)
    (k : call) (e : exn) :
  accept m (recording v) (s, []) = (r, (s', t)) ->
  t = (pre ++ Event k (Raise e) :: post)%list ->
  r = Raise e /\ post = [] /\ clean pre.
Proof.
  intros Hrun Ht.
  destruct (guarded_accept m v s [] (List.Forall_nil _)) as [Hc|Hc];
    rewrite Hrun in Hc; simpl in Hc.
  - subst t. destruct (clean_snoc_raised _ _ _ _ Hc).
  - destruct Hc as (pre' & k' & e' & Ht' & Hpre' & Hr).
    rewrite Ht in Ht'.
    assert (Hpost : post = []).
    { destruct post as [|ev post] using rev_ind; [reflexivity|].
      exfalso.
      change (pre ++ Event k (Raise e) :: post ++ [ev])%list
        with (pre ++ (Event k (Raise e) :: post) ++ [ev])%list in Ht'.
      rewrite List.app_assoc in Ht'.
      apply List.app_inj_tail in Ht' as [<- _].
      exact (clean_snoc_raised _ _ _ _ Hpre'). }
    subst post.
    apply List.app_inj_tail in Ht' as [<- [= <- <-]].
    auto.
Qed.

(** *** The four phases *)

Lemma for_each_bound (els : list _CircuitElement) (cs : list call) t :
  element_calls els = Some cs ->
  for_each (fun el => element_accept el (recording silent)) els (tt, t)
  = (Return tt, (tt, (t ++ List.map returned cs)%list)).
Proof.
  revert cs t; induction els as [|el els IH]; intros cs t; simpl.
  - intros [= <-]. simpl. rewrite List.app_nil_r. reflexivity.
  - destruct (element_call el) as [k|] eqn:Hk; simpl; [|discriminate].
    destruct (element_calls els) as [cs'|]; simpl; [|discriminate].
    intros [= <-].
    destruct (bound_element_accept el k silent Hk) as (method & Hm & ->).
    erewrite bind_returns.
    2:{ rewrite logged_run.
        assert (Hrun : method tt = (Return tt, tt)).
        { rewrite <- Hm.
          destruct el as [[[r|]]|[[o|]]]; simpl in Hk; try discriminate;
            reflexivity. }
        rewrite Hrun. reflexivity. }
    rewrite (IH cs' _ eq_refl). simpl.
    rewrite <- List.app_assoc. reflexivity.
Qed.

(** When every element has its attribute bound, a visitor that never
    raises sees the whole protocol, in order, and [accept] returns. *)
Lemma accept_protocol (m : CirqModule) (cs : list call) :
  protocol m = Some cs ->
  accept m (recording silent) (tt, [])
  = (Return tt, (tt, List.map returned cs)).
Proof.
  unfold protocol, accept.
  destruct (element_calls (_elements m)) as [cs'|] eqn:Hcs; simpl;
    [|discriminate].
  intros [= <-].
  erewrite bind_returns by (rewrite logged_run; reflexivity).
  erewrite bind_returns by (apply for_each_bound, Hcs).
  erewrite bind_returns by (rewrite logged_run; reflexivity).
  rewrite logged_run. simpl.
  rewrite List.map_app, <- List.app_assoc. reflexivity.
Qed.

(** C1: on a module built by [from_circuit] the traversal stops at the
    register.  [visit_cirq_module(m)] is called; if it returns, the
    [_Register] element raises [AttributeError] before any other call,
    so [visit_register], [visit_operation], [record_output] and
    [finalize] are never reached. *)
Theorem accept_from_circuit {V} (C : Circuit) (h : option pyqir.Module_)
    (n : nat) (v : Visitor V) (s : V) :
  buildable C h ->
  exists m,
    fst (from_circuit C h n) = Return m
    /\ protocol m = None
    /\ accept m (recording v) (s, [])
       = (match fst (visit_cirq_module v m s) with
          | Return _ => Raise (AttributeError "_Register" "_register")
          | Raise e => Raise e
          end,
          (snd (visit_cirq_module v m s),
           [Event (visit_cirq_module_call m)
                  (fst (visit_cirq_module v m s))])).
Proof.
  intros Hb.
  destruct (from_circuit_returns C h n Hb) as (m & n' & Hm & _ & He).
  exists m. rewrite Hm. split; [reflexivity|]. split.
  - unfold protocol. rewrite He. reflexivity.
  - unfold accept. rewrite He.
    destruct (visit_cirq_module v m s) as [[[]|e] s1] eqn:Hv; simpl.
    + erewrite bind_returns
        by (simpl; rewrite logged_run, Hv; reflexivity).
      reflexivity.
    + erewrite bind_raises
        by (simpl; rewrite logged_run, Hv; reflexivity).
      reflexivity.
Qed.

End Traversal.

(** ** The theorems at concrete circuits *)

Section Concrete.

Import LineCircuits.
#[local] Existing Instance lib.

Lemma generate_module_id_format_witness :
  exists suffix : string,
    generate_module_id bell = Return ("circuit-" +:+ suffix)
    /\ String.length suffix = 7%nat
    /\ PyStr.all PyStr.isalnum suffix = true
    /\ String.length ("circuit-" +:+ suffix)
       = (String.length "circuit-" + 7)%nat
    /\ String.length ("circuit-" +:+ suffix) = 15%nat.
Proof.
  apply (generate_module_id_format bell bell_json).
  vm_compute. reflexivity.
Defined.

Lemma generate_module_id_deterministic_witness :
  generate_module_id bell = generate_module_id bell.
Proof.
  apply (generate_module_id_deterministic bell bell). reflexivity.
Defined.

Lemma generate_module_id_hex_suffix_witness :
  generate_module_id bell = Return "circuit-2d6fdeb"
  /\ PyStr.all is_lower_hex "2d6fdeb" = true
  /\ In "2d6fdeb" (words_over hex_alphabet 7).
Proof.
  assert (Hs : to_json bell = Return bell_json) by (vm_compute; reflexivity).
  destruct (generate_module_id_hex_suffix bell bell_json Hs)
    as (_ & Hid & Hlower & Hin & _).
  assert (Hd : PyStr.take 7 (hash_hex bell_json) = "2d6fdeb")
    by (vm_compute; reflexivity).
  rewrite Hd in Hid, Hlower, Hin. auto.
Defined.

Lemma bell_buildable : buildable bell None.
Proof. right. exists bell_json. vm_compute. reflexivity. Defined.

Lemma from_circuit_elements_witness :
  exists m,
    fst (from_circuit bell None 0%nat) = Return m
    /\ List.length (_elements m) = 5%nat
    /\ List.nth_error (_elements m) 0
       = Some (Register_elem {| _register := None |})
    /\ List.nth_error (_elements m) 0
       <> Some (Register_elem {| _register := Some (all_qubits bell) |})
    /\ List.tl (_elements m)
       = List.map (fun o => Operation_elem {| _operation := Some o |}) bell.
Proof. exact (from_circuit_elements bell None 0%nat bell_buildable). Defined.

Lemma from_circuit_name_witness :
  (exists m, fst (from_circuit bell (Some handle) 0%nat) = Return m
             /\ name m = "test_qir_bell")
  /\ (exists m, from_circuit bell None 0%nat = (Return m, 1%nat)
                /\ name m = "circuit-2d6fdeb").
Proof.
  destruct (from_circuit_name bell 0%nat) as [Hh Hnone]. split.
  - destruct (Hh handle) as (m & Hm & Hn & _). exists m. split; assumption.
  - assert (Hid : generate_module_id bell = Return "circuit-2d6fdeb")
      by (vm_compute; reflexivity).
    destruct (Hnone _ Hid) as (m & ctx & Hm & _ & _ & Hn).
    exists m. split; assumption.
Defined.

(** The claim C7 at a circuit that does not serialize: with a handle
    supplied, [from_circuit] returns a module all the same. *)
Lemma from_circuit_handle_skips_serialization :
  to_json custom = Raise unsupported
  /\ generate_module_id custom = Raise unsupported
  /\ fst (from_circuit custom (Some handle) 0%nat) <> Raise unsupported
  /\ from_circuit custom (Some handle) 0%nat
     = (Return {| _name := "test_qir_bell";
                  _module := handle;
                  _num_qubits := 1;
                  _elements :=
                    [Register_elem {| _register := None |};
                     Operation_elem {| _operation := Some ("MyGate", [0]) |}] |},
        0%nat).
Proof.
  split; [reflexivity|]. split; [reflexivity|]. split.
  - rewrite from_circuit_handle. discriminate.
  - rewrite from_circuit_handle. vm_compute. reflexivity.
Qed.

Lemma from_circuit_serialization_failure_witness :
  (exists m, from_circuit custom (Some handle) 0%nat = (Return m, 0%nat)
             /\ name m = "test_qir_bell")
  /\ from_circuit custom None 0%nat = (Raise unsupported, 1%nat).
Proof.
  destruct (from_circuit_serialization_failure custom 0%nat) as [Hh Hnone].
  split.
  - exact (Hh handle).
  - apply Hnone. reflexivity.
Defined.

Lemma from_circuit_num_qubits_witness :
  exists m,
    fst (from_circuit bell None 0%nat) = Return m /\ num_qubits m = 2%nat.
Proof.
  destruct (from_circuit_num_qubits bell None 0%nat bell_buildable)
    as (m & Hm & Hq).
  exists m. split; [exact Hm|]. rewrite Hq. vm_compute. reflexivity.
Defined.

Lemma accept_from_circuit_witness :
  exists m,
    fst (from_circuit bell None 0%nat) = Return m
    /\ protocol m = None
    /\ accept m (recording silent) (tt, [])
       = (Raise (AttributeError "_Register" "_register"),
          (tt, [returned (visit_cirq_module_call m)])).
Proof.
  exact (accept_from_circuit bell None 0%nat silent tt bell_buildable).
Defined.

Lemma accept_visitor_failure_witness :
  accept two_operations (recording (failing_at 2 boom)) (0%nat, [])
  = (Raise boom,
     (3%nat,
      [returned (visit_cirq_module_call two_operations);
       returned (visit_operation_call ("H", [0]));
       Event (visit_operation_call ("CNOT", [0; 1])) (Raise boom)]))
  /\ clean [returned (visit_cirq_module_call two_operations);
            returned (visit_operation_call ("H", [0]))].
Proof.
  assert (Hrun :
    accept two_operations (recording (failing_at 2 boom)) (0%nat, [])
    = (Raise boom,
       (3%nat,
        ([returned (visit_cirq_module_call two_operations);
          returned (visit_operation_call ("H", [0]))]
           ++ Event (visit_operation_call ("CNOT", [0; 1])) (Raise boom)
           :: [])%list))) by reflexivity.
  split; [exact Hrun|].
  exact (proj2 (proj2 (accept_visitor_failure _ _ _ _ _ _ _ _ _ _
                         Hrun eq_refl))).
Defined.

End Concrete.

(** ** Which bits of the digest an identifier holds *)

Module IdBits.
Import SHA256 PyStr PyStrFacts SHA256Facts.

Lemma add32_in_word x y : in_word (add32 x y).
Proof. unfold in_word, add32, wrap32. apply Z.mod_pos_bound. lia. Qed.

Lemma blocks_first_word fuel h ws :
  in_word (wa h) -> in_word (wa (blocks fuel h ws)).
Proof.
  revert h ws; induction fuel as [|fuel IH]; intros h ws Hh; simpl; auto.
  destruct ws as [|w ws]; auto.
  apply IH. apply add32_in_word.
Qed.

Lemma digest_first_word msg : in_word (wa (digest_words msg)).
Proof.
  unfold digest_words. apply blocks_first_word.
  unfold in_word; simpl; lia.
Qed.

Lemma id_bits_range s : 0 <= id_bits s < 2 ^ 28.
Proof.
  unfold id_bits. pose proof (digest_first_word (encode s)) as Hw.
  unfold in_word in Hw. rewrite Z.shiftr_div_pow2 by lia.
  split; [apply Z.div_pos; lia|].
  apply Z.div_lt_upper_bound; lia.
Qed.

Lemma nibble_shift w i : 0 <= i -> nibble (Z.shiftr w 4) i = nibble w (i + 1).
Proof.
  intros Hi. unfold nibble. rewrite Z.shiftr_shiftr by lia.
  f_equal. f_equal. lia.
Qed.

(** The seven characters an identifier ends with. *)
Lemma suffix_digits s :
  take 7 (hash_hex s)
  = string_of_list_ascii
      (List.map (fun i => hex_digit (nibble (id_bits s) (Z.of_nat i)))
                [6; 5; 4; 3; 2; 1; 0]%nat).
Proof.
  unfold hash_hex. rewrite hexdigest_chars, take_of_list.
  unfold id_bits.
  generalize (digest_words (encode s)); intros d.
  cbn [hex_chars hex_word List.map List.app firstn].
  repeat (rewrite nibble_shift by lia).
  reflexivity.
Qed.

Lemma hex_digit_inj a b :
  0 <= a < 16 -> 0 <= b < 16 -> hex_digit a = hex_digit b -> a = b.
Proof.
  intros Ha Hb H.
  assert (Hord : forall n, 0 <= n < 16 ->
            ord (hex_digit n) = if n <? 10 then 48 + n else 87 + n).
  { intros n Hn. unfold hex_digit, ord.
    destruct (Z.ltb_spec n 10);
      rewrite N_ascii_embedding by lia; lia. }
  apply (f_equal ord) in H. rewrite !Hord in H by assumption.
  destruct (Z.ltb_spec a 10), (Z.ltb_spec b 10); lia.
Qed.

Lemma nibble_bounds x i : 0 <= nibble x i < 16.
Proof. apply nibble_range. Qed.

Lemma last_digit x y :
  0 <= x -> 0 <= y ->
  Z.land x 15 = Z.land y 15 -> Z.shiftr x 4 = Z.shiftr y 4 -> x = y.
Proof.
  intros Hx Hy Hlow Hhigh.
  change 15 with (Z.ones 4) in Hlow. rewrite !Z.land_ones in Hlow by lia.
  rewrite !Z.shiftr_div_pow2 in Hhigh by lia.
  rewrite (Z.div_mod x (2 ^ 4)), (Z.div_mod y (2 ^ 4)) by lia.
  congruence.
Qed.

Lemma digits_determine (n : nat) x y :
  0 <= x < 16 ^ Z.of_nat n -> 0 <= y < 16 ^ Z.of_nat n ->
  (forall i, 0 <= i < Z.of_nat n -> nibble x i = nibble y i) ->
  x = y.
Proof.
  revert x y; induction n as [|n IH]; intros x y Hx Hy Hd.
  - simpl in Hx, Hy. lia.
  - rewrite Nat2Z.inj_succ, Z.pow_succ_r in Hx, Hy by lia.
    apply last_digit; try lia.
    + specialize (Hd 0 ltac:(lia)). unfold nibble in Hd.
      rewrite !Z.shiftr_0_r in Hd. exact Hd.
    + apply IH.
      * rewrite Z.shiftr_div_pow2 by lia. split; [apply Z.div_pos; lia|].
        apply Z.div_lt_upper_bound; lia.
      * rewrite Z.shiftr_div_pow2 by lia. split; [apply Z.div_pos; lia|].
        apply Z.div_lt_upper_bound; lia.
      * intros i Hi. rewrite !nibble_shift by lia. apply Hd. lia.
Qed.

Lemma suffix_iff_bits s1 s2 :
  take 7 (hash_hex s1) = take 7 (hash_hex s2) <-> id_bits s1 = id_bits s2.
Proof.
  rewrite !suffix_digits. split; [|intros ->; reflexivity].
  cbn [List.map string_of_list_ascii]. intros H.
  injection H as H6 H5 H4 H3 H2 H1 H0.
  apply hex_digit_inj in H0, H1, H2, H3, H4, H5, H6;
    try apply nibble_bounds.
  apply (digits_determine 7); try apply id_bits_range.
  intros i Hi.
  assert (Hcase : i = 0 \/ i = 1 \/ i = 2 \/ i = 3 \/ i = 4 \/ i = 5
                  \/ i = 6) by lia.
  destruct Hcase as [->|[->|[->|[->|[->|[->| ->]]]]]]; assumption.
Qed.

Lemma prefixed_inj (a b : string) :
  "circuit-" +:+ a = "circuit-" +:+ b -> a = b.
Proof. simpl. intros [= H]. exact H. Qed.

End IdBits.

Section IdentifierBits.

Context `{L : CirqLib}.

(** X1: two circuits that serialize get the same identifier exactly when
    the digests of their serialized forms agree on bits 4 to 31 of the
    first word: the identifier holds 28 bits of the digest and nothing
    else of the circuit. *)
Theorem same_id_iff_same_bits (C1 C2 : Circuit) (s1 s2 : string) :
  to_json C1 = Return s1 -> to_json C2 = Return s2 ->
  (generate_module_id C1 = generate_module_id C2
   <-> id_bits s1 = id_bits s2).
Proof.
  intros H1 H2.
  rewrite (generate_module_id_unfold C1 s1 H1).
  rewrite (generate_module_id_unfold C2 s2 H2).
  rewrite <- IdBits.suffix_iff_bits. split.
  - intros H. apply IdBits.prefixed_inj. congruence.
  - intros ->. reflexivity.
Qed.

End IdentifierBits.

(** ** More on building a module *)

Section BuilderFacts.

Context `{L : CirqLib}.

Lemma from_element_list_lookup {A} (cls : A -> _CircuitElement)
    (xs : list A) (i : nat) :
  List.nth_error (from_element_list cls xs) i
  = option_map cls (List.nth_error xs i).
Proof. unfold from_element_list. apply List.nth_error_map. Qed.

(** X2: the loop of [from_circuit] builds what the batch constructor
    builds: its elements are [_Register.from_element_list] of the one
    qubit set followed by [_Operation.from_element_list] of the
    operations, which keeps their number and their order. *)
Theorem from_circuit_as_element_lists (C : Circuit)
    (h : option pyqir.Module_) (n : nat) :
  buildable C h ->
  exists m,
    fst (from_circuit C h n) = Return m
    /\ _elements m
       = (from_element_list (fun r => Register_elem (Register_init r))
                            [all_qubits C]
          ++ from_element_list (fun o => Operation_elem (Operation_init o))
                               (all_operations C))%list
    /\ forall i,
         List.nth_error (_elements m) (S i)
         = option_map (fun o => Operation_elem (Operation_init o))
                      (List.nth_error (all_operations C) i).
Proof.
  intros Hb.
  destruct (from_circuit_returns C h n Hb) as (m & n' & Hm & _ & He).
  exists m. rewrite Hm, He. split; [reflexivity|]. split; [reflexivity|].
  intros i. simpl. apply List.nth_error_map.
Qed.

(** X3: [generate_module_id] raises exactly when [cirq.to_json] does,
    and [from_circuit] exactly when no handle is supplied and
    [cirq.to_json] raises; the exception is the serializer's own. *)
Theorem failure_is_serialization_failure (C : Circuit)
    (h : option pyqir.Module_) (n : nat) (e : exn) :
  (generate_module_id C = Raise e <-> to_json C = Raise e)
  /\ (fst (from_circuit C h n) = Raise e
      <-> h = None /\ to_json C = Raise e).
Proof.
  assert (Hid : generate_module_id C = Raise e <-> to_json C = Raise e).
  { split; [|apply generate_module_id_raises].
    destruct (to_json C) as [s|e'] eqn:Hs.
    - rewrite (generate_module_id_unfold C s Hs). discriminate.
    - rewrite (generate_module_id_raises C e' Hs). trivial. }
  split; [exact Hid|].
  destruct h as [h|].
  - rewrite from_circuit_handle. simpl. split; [discriminate|].
    intros [[=] _].
  - rewrite <- Hid. split.
    + intros Hr. split; [reflexivity|].
      destruct (generate_module_id C) as [id|e'] eqn:Hg.
      * rewrite (from_circuit_fresh C id n Hg) in Hr. discriminate.
      * rewrite (from_circuit_fresh_raises C e' n Hg) in Hr.
        simpl in Hr. congruence.
    + intros [_ Hg]. rewrite (from_circuit_fresh_raises C e n Hg).
      reflexivity.
Qed.

(** X4: without a handle [from_circuit] makes exactly one new context,
    and makes it before it serializes the circuit, so also when it then
    raises; with a handle it makes none. *)
Theorem from_circuit_contexts (C : Circuit) (n : nat) :
  snd (from_circuit C None n) = S n
  /\ (forall m, fst (from_circuit C None n) = Return m ->
                pyqir.context (module m) = {| pyqir.context_id := n |})
  /\ (forall h, snd (from_circuit C (Some h) n) = n).
Proof.
  split; [|split].
  - destruct (generate_module_id C) as [id|e] eqn:Hg.
    + rewrite (from_circuit_fresh C id n Hg). reflexivity.
    + rewrite (from_circuit_fresh_raises C e n Hg). reflexivity.
  - intros m. destruct (generate_module_id C) as [id|e] eqn:Hg.
    + rewrite (from_circuit_fresh C id n Hg). simpl. intros [= <-].
      reflexivity.
    + rewrite (from_circuit_fresh_raises C e n Hg). discriminate.
  - intros h. rewrite from_circuit_handle. reflexivity.
Qed.

(** X5: a circuit with no operations and no qubits gives a module of
    exactly one element, the register, and [num_qubits = 0]. *)
Theorem from_circuit_empty (C : Circuit) (h : option pyqir.Module_) (n : nat) :
  all_operations C = [] -> all_qubits C = ∅ -> buildable C h ->
  exists m,
    fst (from_circuit C h n) = Return m
    /\ _elements m = [Register_elem (Register_init ∅)]
    /\ num_qubits m = 0%nat.
Proof.
  intros Hops Hq Hb.
  destruct (from_circuit_returns C h n Hb) as (m & n' & Hm & Hn & He).
  exists m. rewrite Hm. split; [reflexivity|].
  unfold num_qubits. rewrite Hn, He, Hops, Hq. split; [reflexivity|].
  apply size_empty.
Qed.

End BuilderFacts.

(** ** More on traversal *)

Section TraversalFacts.

Context `{L : CirqLib}.

(** *** Recording changes nothing *)






(** *** One operation *)

(** X6: [_Operation(o).accept(v)] makes one call on the visitor,
    [visit_operation(o)], and ends as that call ends: with its result or
    its exception, and the visitor in the state the call left it in. *)
Theorem operation_accept_calls {V} (o : Operation) (v : Visitor V)
    (s : V) (t : list event) :
  element_accept (Operation_elem (Operation_init o)) v s
  = visit_operation v o s
  /\ element_accept (Operation_elem (Operation_init o)) (recording v) (s, t)
     = (fst (visit_operation v o s),
        (snd (visit_operation v o s),
         (t ++ [Event (visit_operation_call o)
                      (fst (visit_operation v o s))])%list)).
Proof.
  split; [reflexivity|].
  change (element_accept (Operation_elem (Operation_init o)) (recording v))
    with (logged (visit_operation_call o) (visit_operation v o)).
  apply logged_run.
Qed.

(** *** Calls in order *)






End TraversalFacts.

(** ** How a traversal ends *)

Section TraversalOutcome.

Context `{L : CirqLib}.


Lemma returns_logged {V} (k : call) (method : Py V unit) :
  returns method -> returns (logged k method).
Proof. intros H [s t]. rewrite logged_run. apply H. Qed.

Lemma never_raises_recording {V} (v : Visitor V) :
  never_raises v -> never_raises (recording v).
Proof.
  intros (H1 & H2 & H3 & H4 & H5).
  repeat split; intros; apply returns_logged; auto.
Qed.





(** *** A register made by the constructor *)





End TraversalOutcome.

(** ** The further properties at concrete circuits *)

Section ConcreteFacts.

Import LineCircuits.
#[local] Existing Instance lib.

Lemma same_id_iff_same_bits_witness :
  to_json Collision.first <> to_json Collision.second
  /\ generate_module_id Collision.first
     = generate_module_id Collision.second.
Proof.
  split; [vm_compute; discriminate|].
  apply (same_id_iff_same_bits Collision.first Collision.second
           "[H(14522)]" "[H(19069)]");
    vm_compute; reflexivity.
Defined.

Lemma from_circuit_as_element_lists_witness :
  exists m,
    fst (from_circuit bell None 0%nat) = Return m
    /\ List.nth_error (_elements m) 2
       = Some (Operation_elem (Operation_init ("CNOT", [0; 1]))).
Proof.
  destruct (from_circuit_as_element_lists bell None 0%nat bell_buildable)
    as (m & Hm & _ & Hi).
  exists m. split; [exact Hm|]. rewrite (Hi 1%nat). reflexivity.
Defined.

Lemma failure_is_serialization_failure_witness :
  generate_module_id custom = Raise unsupported
  /\ fst (from_circuit custom None 0%nat) = Raise unsupported.
Proof.
  destruct (failure_is_serialization_failure custom None 0%nat unsupported)
    as [Hid Hfc].
  split; [apply Hid|apply Hfc; split]; reflexivity.
Defined.

Lemma from_circuit_contexts_witness :
  snd (from_circuit custom None 7%nat) = 8%nat
  /\ snd (from_circuit custom (Some handle) 7%nat) = 7%nat.
Proof.
  destruct (from_circuit_contexts custom 7%nat) as (Hnone & _ & Hh).
  split; [exact Hnone|exact (Hh handle)].
Defined.

Lemma from_circuit_empty_witness :
  exists m,
    fst (from_circuit empty None 0%nat) = Return m
    /\ _elements m = [Register_elem (Register_init ∅)]
    /\ num_qubits m = 0%nat.
Proof.
  apply (from_circuit_empty empty None 0%nat); try reflexivity.
  right. exists "[]". reflexivity.
Defined.





End ConcreteFacts.
